(** * pybmd: the Timeline and MediaStorage wrappers

    A shallow embedding of [pybmd/timeline.py] and [pybmd/media_storage.py].
    Both classes are thin wrappers around a handle owned by the host
    application: a method reads the handle out of [self], performs a call on
    it and hands the answer back, sometimes wrapped in another wrapper class.

    The host application is outside the repository, so it is a parameter of
    every statement: an [env] answers each call, given the calls made so far.
    Wrapper code runs in a small monad that threads the instance dictionary of
    [self] and the trace of calls that reached the host, and that carries
    exceptions. *)

From Stdlib Require Import List String ZArith NArith Bool Lia.
Import ListNotations.
Open Scope string_scope.
Open Scope list_scope.
Set Warnings "-register-all".

(** ** Python values *)

Module Py.

(** The values wrapper code touches.  [VPath s] is a path object
    ([os.PathLike]) whose string form is [s]; [VHandle] is an object of the
    host application's scripting bridge; [VObj cls d] is an instance of a class
    of this repository with instance dictionary [d], in insertion order. *)
Inductive pyval : Type :=
| VNone
| VBool (b : bool)
| VInt (z : Z)
| VStr (s : string)
| VPath (s : string)
| VList (items : list pyval)
| VDict (entries : list (pyval * pyval))
| VHandle (id : N)
| VObj (cls : string) (dict : list (string * pyval)).

(** Exceptions.  [FromHost p] is whatever a call on a handle raised, with its
    payload; the other two are raised by the interpreter while it runs wrapper
    code: iterating over [v] that is not iterable, and reading an attribute
    that an instance of class [cls] does not have. *)
Inductive exn : Type :=
| FromHost (payload : pyval)
| TypeError_not_iterable (v : pyval)
| AttributeError (cls attr : string).

Inductive result (A : Type) : Type :=
| Ok (a : A)
| Raise (e : exn).
Arguments Ok {A} a.
Arguments Raise {A} e.

(** A call on a foreign object: [receiver.operation( *arguments )]. *)
Record call : Type := Call {
  receiver : pyval;
  operation : string;
  arguments : list pyval
}.

Inductive outcome : Type :=
| Returns (v : pyval)
| Raises (payload : pyval).

(** Everything the repository does not define: how the host answers a call
    (attribute lookup on the receiver included), which may depend on the calls
    made before, and the string form of values other than strings and
    paths. *)
Record env : Type := Env {
  respond : list call -> call -> outcome;
  str_other : pyval -> string
}.

Record instance : Type := Instance {
  inst_class : string;
  inst_dict : list (string * pyval)
}.

(** The state a method runs in: the object bound to [self] and the calls that
    have reached the host, oldest first. *)
Record state : Type := State {
  self : instance;
  trace : list call
}.

Definition M (A : Type) : Type := env -> state -> result A * state.

Definition ret {A} (a : A) : M A := fun _ st => (Ok a, st).

Definition bind {A B} (m : M A) (k : A -> M B) : M B :=
  fun E st =>
    match m E st with
    | (Ok a, st') => k a E st'
    | (Raise e, st') => (Raise e, st')
    end.

Definition raise {A} (e : exn) : M A := fun _ st => (Raise e, st).

Declare Scope py_scope.
Delimit Scope py_scope with py.
Notation "x <- m ;; k" := (bind m (fun x => k))
  (at level 100, m at next level, right associativity) : py_scope.
Notation "m ;;; k" := (bind m (fun _ => k))
  (at level 100, right associativity) : py_scope.
Open Scope py_scope.

(** [str(v)] and the formatting of [v] inside an f-string with an empty format
    specification. *)
Definition py_str (E : env) (v : pyval) : string :=
  match v with
  | VStr s => s
  | VPath s => s
  | _ => str_other E v
  end.

Definition str (v : pyval) : M pyval := fun E st => (Ok (VStr (py_str E v)), st).

(** The text a replacement field [{v}] of an f-string contributes. *)
Definition format (v : pyval) : M string := fun E st => (Ok (py_str E v), st).

(** The single-character strings of [s], in order. *)
Fixpoint chars (s : string) : list pyval :=
  match s with
  | EmptyString => []
  | String c s' => VStr (String c EmptyString) :: chars s'
  end.

(** What [for x in v] walks through; [None] when [v] is not iterable.
    A dictionary yields its keys, a string its characters.  Handles are
    treated as not iterable. *)
Definition py_iter (v : pyval) : option (list pyval) :=
  match v with
  | VList items => Some items
  | VDict entries => Some (map fst entries)
  | VStr s => Some (chars s)
  | _ => None
  end.

Definition iter (v : pyval) : M (list pyval) :=
  match py_iter v with
  | Some items => ret items
  | None => raise (TypeError_not_iterable v)
  end.

Fixpoint lookup (name : string) (d : list (string * pyval)) : option pyval :=
  match d with
  | [] => None
  | (k, v) :: d' => if String.eqb k name then Some v else lookup name d'
  end.

(** Assignment into a dictionary: an existing key keeps its place, a new one
    goes last. *)
Fixpoint assign (name : string) (v : pyval) (d : list (string * pyval))
  : list (string * pyval) :=
  match d with
  | [] => [(name, v)]
  | (k, w) :: d' =>
      if String.eqb k name then (k, v) :: d' else (k, w) :: assign name v d'
  end.

(** Attributes defined in a class body.  Only [MediaStorage] has one
    ([media_storage = None]). *)
Definition class_attrs (cls : string) : list (string * pyval) :=
  if String.eqb cls "MediaStorage" then [("media_storage", VNone)] else [].

(** [self.name]: the instance dictionary first, then the class. *)
Definition self_attr (name : string) : M pyval :=
  fun _ st =>
    match lookup name (inst_dict (self st)) with
    | Some v => (Ok v, st)
    | None =>
        match lookup name (class_attrs (inst_class (self st))) with
        | Some v => (Ok v, st)
        | None => (Raise (AttributeError (inst_class (self st)) name), st)
        end
    end.

(** [self.name = v]. *)
Definition set_self_attr (name : string) (v : pyval) : M unit :=
  fun _ st =>
    (Ok tt,
     {| self := {| inst_class := inst_class (self st);
                   inst_dict := assign name v (inst_dict (self st)) |};
        trace := trace st |}).

(** [obj.op( *args )] on a foreign object: the call is recorded and the host
    decides whether it returns or raises. *)
Definition invoke (obj : pyval) (op : string) (args : list pyval) : M pyval :=
  fun E st =>
    let c := {| receiver := obj; operation := op; arguments := args |} in
    let st' := {| self := self st; trace := trace st ++ [c] |} in
    match respond E (trace st) c with
    | Returns v => (Ok v, st')
    | Raises p => (Raise (FromHost p), st')
    end.

(** [cls(...)]: a fresh instance with an empty dictionary is bound to [self]
    while [init] runs; the caller's [self] is untouched. *)
Definition construct (cls : string) (init : M unit) : M pyval :=
  fun E st =>
    match init E {| self := {| inst_class := cls; inst_dict := [] |};
                    trace := trace st |} with
    | (Ok _, st') =>
        (Ok (VObj cls (inst_dict (self st'))),
         {| self := self st; trace := trace st' |})
    | (Raise e, st') => (Raise e, {| self := self st; trace := trace st' |})
    end.

End Py.
Import Py.

(** ** The wrapper classes that [timeline.py] and [media_storage.py] import *)

Module TimelineItem.

(** Modelled from the spec: the class [TimelineItem] of
    [pybmd/timeline_item.py], a wrapper that holds exactly one handle and owns
    no other state.  The attribute name is the one [timeline.py] reads and the
    keyword it constructs with. *)
Record t : Type := Make { timeline_item : pyval }.

(** The wrapper as a Python object. *)
Definition to_val (w : t) : pyval :=
  VObj "TimelineItem" [("timeline_item", timeline_item w)].

(** [TimelineItem(h)]. *)
Definition new (h : pyval) : pyval := to_val {| timeline_item := h |}.

End TimelineItem.

Module GalleryStill.

(** Modelled from the spec: the class [GalleryStill] of
    [pybmd/gallery_still.py], a wrapper that holds exactly one handle. *)
Record t : Type := Make { gallery_still : pyval }.

Definition to_val (w : t) : pyval :=
  VObj "GalleryStill" [("gallery_still", gallery_still w)].

(** [GalleryStill(h)]. *)
Definition new (h : pyval) : pyval := to_val {| gallery_still := h |}.

End GalleryStill.

Module MediaPoolItem.

(** Modelled from the spec: the class [MediaPoolItem] of
    [pybmd/media_pool_item.py], a wrapper that holds exactly one handle. *)
Record t : Type := Make { media_pool_item : pyval }.

Definition to_val (w : t) : pyval :=
  VObj "MediaPoolItem" [("media_pool_item", media_pool_item w)].

(** [MediaPoolItem(h)]. *)
Definition new (h : pyval) : pyval := to_val {| media_pool_item := h |}.

End MediaPoolItem.

(** ** timeline.py *)

(** The dataclass [ImportOptions], fields in declaration order. *)
Record ImportOptions : Type := {
  sourceClipsPath : string;
  sourceClipsFolders : string;
  autoImportSourceClipsIntoMediaPool : bool;
  ignoreFileExtensionsWhenMatching : bool;
  linkToSourceCameraFiles : bool;
  useSizingInfo : bool;
  importMultiChannelAudioTracksAsLinkedGroups : bool;
  insertAdditionalTracks : bool;
  insertWithOffset : string
}.

(** [ImportOptions()]: every field at its declared default. *)
Definition ImportOptions_default : ImportOptions := {|
  sourceClipsPath := "";
  sourceClipsFolders := "";
  autoImportSourceClipsIntoMediaPool := true;
  ignoreFileExtensionsWhenMatching := false;
  linkToSourceCameraFiles := false;
  useSizingInfo := false;
  importMultiChannelAudioTracksAsLinkedGroups := false;
  insertAdditionalTracks := true;
  insertWithOffset := "00:00:00:00"
|}.

(** [dataclasses.asdict]: one entry per field, in declaration order. *)
Definition asdict (o : ImportOptions) : pyval :=
  VDict
    [ (VStr "sourceClipsPath", VStr (sourceClipsPath o));
      (VStr "sourceClipsFolders", VStr (sourceClipsFolders o));
      (VStr "autoImportSourceClipsIntoMediaPool",
       VBool (autoImportSourceClipsIntoMediaPool o));
      (VStr "ignoreFileExtensionsWhenMatching",
       VBool (ignoreFileExtensionsWhenMatching o));
      (VStr "linkToSourceCameraFiles", VBool (linkToSourceCameraFiles o));
      (VStr "useSizingInfo", VBool (useSizingInfo o));
      (VStr "importMultiChannelAudioTracksAsLinkedGroups",
       VBool (importMultiChannelAudioTracksAsLinkedGroups o));
      (VStr "insertAdditionalTracks", VBool (insertAdditionalTracks o));
      (VStr "insertWithOffset", VStr (insertWithOffset o)) ].

Inductive TrackType : Type :=
| AUDIO_TRACK
| VIDEO_TRACK
| SUBTITLE_TRACK.

(** [track_type.value]. *)
Definition value (track_type : TrackType) : string :=
  match track_type with
  | AUDIO_TRACK => "audio"
  | VIDEO_TRACK => "video"
  | SUBTITLE_TRACK => "subtitle"
  end.

(** The loop appends the held handle of each wrapper to a list that starts
    empty. *)
Definition timeline_item_class_list_transfer
    (timeline_item_list : list TimelineItem.t) : list pyval :=
  fold_left
    (fun timeline_item_trans_list timeline_item =>
       timeline_item_trans_list ++ [TimelineItem.timeline_item timeline_item])
    timeline_item_list [].

(** An optional parameter and its default. *)
Definition default_arg (d : pyval) (a : option pyval) : pyval :=
  match a with
  | Some v => v
  | None => d
  end.

(** ** What a method does with the answer of its handle

    To speak about every method of a class at once, each class below lists its
    methods as invocations.  An invocation runs the method's embedding; beside
    it stand, for comparison, the call the method delegates to and the shape
    of what it does with the answer: hand it back, wrap it, wrap each of its
    elements, or print it. *)

Inductive shape : Type :=
| Forwards
| Wraps (mk : pyval -> pyval)
| WrapsEach (mk : pyval -> pyval)
| Formats.

(** The result a method of a given shape yields from the answer [v] of the
    handle. *)
Definition finish (E : env) (sh : shape) (v : pyval) : result pyval :=
  match sh with
  | Forwards => Ok v
  | Wraps mk => Ok (mk v)
  | WrapsEach mk =>
      match py_iter v with
      | Some handles => Ok (VList (map mk handles))
      | None => Raise (TypeError_not_iterable v)
      end
  | Formats => Ok (VStr ("Timeline:f" ++ py_str E v)%string)
  end.

Definition expected (E : env) (sh : shape) (o : outcome) : result pyval :=
  match o with
  | Returns v => finish E sh v
  | Raises p => Raise (FromHost p)
  end.

Definition iterates (sh : shape) : bool :=
  match sh with
  | WrapsEach _ => true
  | _ => false
  end.

Module Timeline.

Definition __init__ (timeline : pyval) : M unit :=
  set_self_attr "timeline" timeline.

(** [Timeline(timeline=h)]. *)
Definition new (timeline : pyval) : M pyval :=
  construct "Timeline" (__init__ timeline).

Definition get_name : M pyval :=
  timeline <- self_attr "timeline";;
  invoke timeline "GetName" [].

Definition __repr__ : M pyval :=
  name <- get_name;;
  text <- format name;;
  ret (VStr ("Timeline:f" ++ text)%string).

Definition add_marker (frame_id color name note duration custom_data : pyval)
  : M pyval :=
  timeline <- self_attr "timeline";;
  invoke timeline "AddMarker"
    [frame_id; color; name; note; duration; custom_data].

Definition apply_grade_from_drx (path grade_mode timeline_items : pyval)
  : M pyval :=
  timeline <- self_attr "timeline";;
  path_str <- str path;;
  invoke timeline "ApplyGradeFromDRX" [path_str; grade_mode; timeline_items].

Definition create_compound_clip (timeline_items : list TimelineItem.t)
    (clipinfo : pyval) : M pyval :=
  timeline <- self_attr "timeline";;
  clip <- invoke timeline "CreateCompoundClip"
            [VList (timeline_item_class_list_transfer timeline_items); clipinfo];;
  ret (TimelineItem.new clip).

Definition create_fusion_clip (timeline_items : list TimelineItem.t)
  : M pyval :=
  timeline <- self_attr "timeline";;
  clip <- invoke timeline "CreateFusionClip"
            [VList (timeline_item_class_list_transfer timeline_items)];;
  ret (TimelineItem.new clip).

Definition delete_marker_at_frame (frame_num : pyval) : M pyval :=
  timeline <- self_attr "timeline";;
  invoke timeline "DeleteMarkerAtFrame" [frame_num].

Definition delete_marker_by_custom_data (custom_data : pyval) : M pyval :=
  timeline <- self_attr "timeline";;
  invoke timeline "DeleteMarkerByCustomData" [custom_data].

Definition delete_marker_by_color (color : pyval) : M pyval :=
  timeline <- self_attr "timeline";;
  invoke timeline "DeleteMarkerByColor" [color].

Definition duplicate_timeline (timeline_name : pyval) : M pyval :=
  timeline <- self_attr "timeline";;
  copy <- invoke timeline "DuplicateTimeline" [timeline_name];;
  new copy.

Definition export (file_name export_type : pyval)
    (export_subtype : option pyval) : M pyval :=
  timeline <- self_attr "timeline";;
  invoke timeline "Export"
    [file_name; export_type; default_arg VNone export_subtype].

Definition get_current_clip_thumbnail_image : M pyval :=
  timeline <- self_attr "timeline";;
  invoke timeline "GetCurrentClipThumbnailImage" [].

Definition get_current_timecode : M pyval :=
  timeline <- self_attr "timeline";;
  invoke timeline "GetCurrentTimecode" [].

Definition get_current_video_item : M pyval :=
  timeline <- self_attr "timeline";;
  item <- invoke timeline "GetCurrentVideoItem" [];;
  ret (TimelineItem.new item).

Definition get_end_frame : M pyval :=
  timeline <- self_attr "timeline";;
  invoke timeline "GetEndFrame" [].

Definition get_item_list_in_track (track_type : TrackType) (index : pyval)
  : M pyval :=
  timeline <- self_attr "timeline";;
  answer <- invoke timeline "GetItemListInTrack"
              [VStr (value track_type); index];;
  handles <- iter answer;;
  ret (VList
         (fold_left
            (fun timeline_items_list timeline_item =>
               timeline_items_list ++ [TimelineItem.new timeline_item])
            handles [])).

Definition get_marker_by_custom_data (custom_data : pyval) : M pyval :=
  timeline <- self_attr "timeline";;
  invoke timeline "GetMarkerByCustomData" [custom_data].

Definition get_marker_custom_data (frame_id : pyval) : M pyval :=
  timeline <- self_attr "timeline";;
  invoke timeline "GetMarkerCustomData" [frame_id].

Definition get_markers : M pyval :=
  timeline <- self_attr "timeline";;
  invoke timeline "GetMarkers" [].

Definition get_setting (setting_name : option pyval) : M pyval :=
  timeline <- self_attr "timeline";;
  invoke timeline "GetSetting" [default_arg (VStr "") setting_name].

Definition get_start_frame : M pyval :=
  timeline <- self_attr "timeline";;
  invoke timeline "GetStartFrame" [].

Definition get_track_count (track_type : TrackType) : M pyval :=
  timeline <- self_attr "timeline";;
  invoke timeline "GetTrackCount" [VStr (value track_type)].

Definition get_track_name (track_type : TrackType) (track_index : pyval)
  : M pyval :=
  timeline <- self_attr "timeline";;
  invoke timeline "GetTrackName" [VStr (value track_type); track_index].

Definition grab_all_stills (still_frame_source : pyval) : M pyval :=
  timeline <- self_attr "timeline";;
  answer <- invoke timeline "GrabAllStills" [still_frame_source];;
  handles <- iter answer;;
  ret (VList
         (fold_left
            (fun gallery_stills_list gallery_still =>
               gallery_stills_list ++ [gallery_still])
            handles [])).

Definition grab_still : M pyval :=
  timeline <- self_attr "timeline";;
  still <- invoke timeline "GrabStill" [];;
  ret (GalleryStill.new still).

Definition import_into_timeline (file_path : pyval)
    (import_options : ImportOptions) : M pyval :=
  timeline <- self_attr "timeline";;
  invoke timeline "ImportIntoTimeline" [file_path; asdict import_options].

Definition insert_fusion_generator_into_timeline (generator_name : pyval)
  : M pyval :=
  timeline <- self_attr "timeline";;
  item <- invoke timeline "InsertFusionGeneratorIntoTimeline" [generator_name];;
  ret (TimelineItem.new item).

Definition insert_fusion_title_into_timeline (title_name : pyval) : M pyval :=
  timeline <- self_attr "timeline";;
  item <- invoke timeline "InsertFusionTitleIntoTimeline" [title_name];;
  ret (TimelineItem.new item).

Definition insert_generator_into_timeline (generator_name : pyval)
  : M pyval :=
  timeline <- self_attr "timeline";;
  item <- invoke timeline "InsertGeneratorIntoTimeline" [generator_name];;
  ret (TimelineItem.new item).

Definition insert_oFX_generator_into_timeline (generator_name : pyval)
  : M pyval :=
  timeline <- self_attr "timeline";;
  item <- invoke timeline "InsertOFXGeneratorIntoTimeline" [generator_name];;
  ret (TimelineItem.new item).

Definition insert_title_into_timeline (title_name : pyval) : M pyval :=
  timeline <- self_attr "timeline";;
  item <- invoke timeline "InsertTitleIntoTimeline" [title_name];;
  ret (TimelineItem.new item).

Definition set_current_timecode (tiemcode : pyval) : M pyval :=
  timeline <- self_attr "timeline";;
  invoke timeline "SetCurrentTimecode" [tiemcode].

Definition set_name (timeline_name : pyval) : M pyval :=
  timeline <- self_attr "timeline";;
  invoke timeline "SetName" [timeline_name].

Definition set_setting (setting_name setting_value : pyval) : M pyval :=
  timeline <- self_attr "timeline";;
  invoke timeline "SetSetting" [setting_name; setting_value].

Definition set_track_name (track_type : TrackType)
    (track_index name : pyval) : M pyval :=
  timeline <- self_attr "timeline";;
  invoke timeline "SetTrackName" [VStr (value track_type); track_index; name].

Definition update_marker_custom_data (frame_id custom_data : pyval)
  : M pyval :=
  timeline <- self_attr "timeline";;
  invoke timeline "UpdateMarkerCustomData" [frame_id; custom_data].

Definition set_start_timecode (timecode : pyval) : M pyval :=
  timeline <- self_attr "timeline";;
  invoke timeline "SetStartTimecode" [timecode].

Definition get_start_timecode : M pyval :=
  timeline <- self_attr "timeline";;
  invoke timeline "GetStartTimecode" [].

Definition insert_fusion_composition_into_timeline : M pyval :=
  timeline <- self_attr "timeline";;
  item <- invoke timeline "InsertFusionCompositionIntoTimeline" [];;
  ret (TimelineItem.new item).

Definition get_unique_id : M pyval :=
  timeline <- self_attr "timeline";;
  invoke timeline "GetUniqueId" [].


(** The object [Timeline(timeline=h)] evaluates to. *)
Definition to_val (h : pyval) : pyval := VObj "Timeline" [("timeline", h)].

(** One constructor per method of the class other than the constructor, with
    the arguments of the call. *)
Inductive invocation : Type :=
| I_repr
| I_add_marker (frame_id color name note duration custom_data : pyval)
| I_apply_grade_from_drx (path grade_mode timeline_items : pyval)
| I_create_compound_clip (timeline_items : list TimelineItem.t) (clipinfo : pyval)
| I_create_fusion_clip (timeline_items : list TimelineItem.t)
| I_delete_marker_at_frame (frame_num : pyval)
| I_delete_marker_by_custom_data (custom_data : pyval)
| I_delete_marker_by_color (color : pyval)
| I_duplicate_timeline (timeline_name : pyval)
| I_export (file_name export_type : pyval) (export_subtype : option pyval)
| I_get_current_clip_thumbnail_image
| I_get_current_timecode
| I_get_current_video_item
| I_get_end_frame
| I_get_item_list_in_track (track_type : TrackType) (index : pyval)
| I_get_marker_by_custom_data (custom_data : pyval)
| I_get_marker_custom_data (frame_id : pyval)
| I_get_markers
| I_get_name
| I_get_setting (setting_name : option pyval)
| I_get_start_frame
| I_get_track_count (track_type : TrackType)
| I_get_track_name (track_type : TrackType) (track_index : pyval)
| I_grab_all_stills (still_frame_source : pyval)
| I_grab_still
| I_import_into_timeline (file_path : pyval) (import_options : ImportOptions)
| I_insert_fusion_generator_into_timeline (generator_name : pyval)
| I_insert_fusion_title_into_timeline (title_name : pyval)
| I_insert_generator_into_timeline (generator_name : pyval)
| I_insert_oFX_generator_into_timeline (generator_name : pyval)
| I_insert_title_into_timeline (title_name : pyval)
| I_set_current_timecode (tiemcode : pyval)
| I_set_name (timeline_name : pyval)
| I_set_setting (setting_name setting_value : pyval)
| I_set_track_name (track_type : TrackType) (track_index name : pyval)
| I_update_marker_custom_data (frame_id custom_data : pyval)
| I_set_start_timecode (timecode : pyval)
| I_get_start_timecode
| I_insert_fusion_composition_into_timeline
| I_get_unique_id.

Definition run (i : invocation) : M pyval :=
  match i with
  | I_repr =>
      __repr__
  | I_add_marker frame_id color name note duration custom_data =>
      add_marker frame_id color name note duration custom_data
  | I_apply_grade_from_drx path grade_mode timeline_items =>
      apply_grade_from_drx path grade_mode timeline_items
  | I_create_compound_clip timeline_items clipinfo =>
      create_compound_clip timeline_items clipinfo
  | I_create_fusion_clip timeline_items =>
      create_fusion_clip timeline_items
  | I_delete_marker_at_frame frame_num =>
      delete_marker_at_frame frame_num
  | I_delete_marker_by_custom_data custom_data =>
      delete_marker_by_custom_data custom_data
  | I_delete_marker_by_color color =>
      delete_marker_by_color color
  | I_duplicate_timeline timeline_name =>
      duplicate_timeline timeline_name
  | I_export file_name export_type export_subtype =>
      export file_name export_type export_subtype
  | I_get_current_clip_thumbnail_image =>
      get_current_clip_thumbnail_image
  | I_get_current_timecode =>
      get_current_timecode
  | I_get_current_video_item =>
      get_current_video_item
  | I_get_end_frame =>
      get_end_frame
  | I_get_item_list_in_track track_type index =>
      get_item_list_in_track track_type index
  | I_get_marker_by_custom_data custom_data =>
      get_marker_by_custom_data custom_data
  | I_get_marker_custom_data frame_id =>
      get_marker_custom_data frame_id
  | I_get_markers =>
      get_markers
  | I_get_name =>
      get_name
  | I_get_setting setting_name =>
      get_setting setting_name
  | I_get_start_frame =>
      get_start_frame
  | I_get_track_count track_type =>
      get_track_count track_type
  | I_get_track_name track_type track_index =>
      get_track_name track_type track_index
  | I_grab_all_stills still_frame_source =>
      grab_all_stills still_frame_source
  | I_grab_still =>
      grab_still
  | I_import_into_timeline file_path import_options =>
      import_into_timeline file_path import_options
  | I_insert_fusion_generator_into_timeline generator_name =>
      insert_fusion_generator_into_timeline generator_name
  | I_insert_fusion_title_into_timeline title_name =>
      insert_fusion_title_into_timeline title_name
  | I_insert_generator_into_timeline generator_name =>
      insert_generator_into_timeline generator_name
  | I_insert_oFX_generator_into_timeline generator_name =>
      insert_oFX_generator_into_timeline generator_name
  | I_insert_title_into_timeline title_name =>
      insert_title_into_timeline title_name
  | I_set_current_timecode tiemcode =>
      set_current_timecode tiemcode
  | I_set_name timeline_name =>
      set_name timeline_name
  | I_set_setting setting_name setting_value =>
      set_setting setting_name setting_value
  | I_set_track_name track_type track_index name =>
      set_track_name track_type track_index name
  | I_update_marker_custom_data frame_id custom_data =>
      update_marker_custom_data frame_id custom_data
  | I_set_start_timecode timecode =>
      set_start_timecode timecode
  | I_get_start_timecode =>
      get_start_timecode
  | I_insert_fusion_composition_into_timeline =>
      insert_fusion_composition_into_timeline
  | I_get_unique_id =>
      get_unique_id
  end.

(** The operation of the underlying interface that a method stands for. *)
Definition operation_name (i : invocation) : string :=
  match i with
  | I_repr => "GetName"
  | I_add_marker _ _ _ _ _ _ => "AddMarker"
  | I_apply_grade_from_drx _ _ _ => "ApplyGradeFromDRX"
  | I_create_compound_clip _ _ => "CreateCompoundClip"
  | I_create_fusion_clip _ => "CreateFusionClip"
  | I_delete_marker_at_frame _ => "DeleteMarkerAtFrame"
  | I_delete_marker_by_custom_data _ => "DeleteMarkerByCustomData"
  | I_delete_marker_by_color _ => "DeleteMarkerByColor"
  | I_duplicate_timeline _ => "DuplicateTimeline"
  | I_export _ _ _ => "Export"
  | I_get_current_clip_thumbnail_image => "GetCurrentClipThumbnailImage"
  | I_get_current_timecode => "GetCurrentTimecode"
  | I_get_current_video_item => "GetCurrentVideoItem"
  | I_get_end_frame => "GetEndFrame"
  | I_get_item_list_in_track _ _ => "GetItemListInTrack"
  | I_get_marker_by_custom_data _ => "GetMarkerByCustomData"
  | I_get_marker_custom_data _ => "GetMarkerCustomData"
  | I_get_markers => "GetMarkers"
  | I_get_name => "GetName"
  | I_get_setting _ => "GetSetting"
  | I_get_start_frame => "GetStartFrame"
  | I_get_track_count _ => "GetTrackCount"
  | I_get_track_name _ _ => "GetTrackName"
  | I_grab_all_stills _ => "GrabAllStills"
  | I_grab_still => "GrabStill"
  | I_import_into_timeline _ _ => "ImportIntoTimeline"
  | I_insert_fusion_generator_into_timeline _ => "InsertFusionGeneratorIntoTimeline"
  | I_insert_fusion_title_into_timeline _ => "InsertFusionTitleIntoTimeline"
  | I_insert_generator_into_timeline _ => "InsertGeneratorIntoTimeline"
  | I_insert_oFX_generator_into_timeline _ => "InsertOFXGeneratorIntoTimeline"
  | I_insert_title_into_timeline _ => "InsertTitleIntoTimeline"
  | I_set_current_timecode _ => "SetCurrentTimecode"
  | I_set_name _ => "SetName"
  | I_set_setting _ _ => "SetSetting"
  | I_set_track_name _ _ _ => "SetTrackName"
  | I_update_marker_custom_data _ _ => "UpdateMarkerCustomData"
  | I_set_start_timecode _ => "SetStartTimecode"
  | I_get_start_timecode => "GetStartTimecode"
  | I_insert_fusion_composition_into_timeline => "InsertFusionCompositionIntoTimeline"
  | I_get_unique_id => "GetUniqueId"
  end.

(** The arguments the handle is expected to receive, as the code forwards
    them. *)
Definition forwarded (E : env) (i : invocation) : list pyval :=
  match i with
  | I_repr =>
      []
  | I_add_marker frame_id color name note duration custom_data =>
      [frame_id; color; name; note; duration; custom_data]
  | I_apply_grade_from_drx path grade_mode timeline_items =>
      [VStr (py_str E path); grade_mode; timeline_items]
  | I_create_compound_clip timeline_items clipinfo =>
      [VList (map TimelineItem.timeline_item timeline_items); clipinfo]
  | I_create_fusion_clip timeline_items =>
      [VList (map TimelineItem.timeline_item timeline_items)]
  | I_delete_marker_at_frame frame_num =>
      [frame_num]
  | I_delete_marker_by_custom_data custom_data =>
      [custom_data]
  | I_delete_marker_by_color color =>
      [color]
  | I_duplicate_timeline timeline_name =>
      [timeline_name]
  | I_export file_name export_type export_subtype =>
      [file_name; export_type; default_arg VNone export_subtype]
  | I_get_current_clip_thumbnail_image =>
      []
  | I_get_current_timecode =>
      []
  | I_get_current_video_item =>
      []
  | I_get_end_frame =>
      []
  | I_get_item_list_in_track track_type index =>
      [VStr (value track_type); index]
  | I_get_marker_by_custom_data custom_data =>
      [custom_data]
  | I_get_marker_custom_data frame_id =>
      [frame_id]
  | I_get_markers =>
      []
  | I_get_name =>
      []
  | I_get_setting setting_name =>
      [default_arg (VStr "") setting_name]
  | I_get_start_frame =>
      []
  | I_get_track_count track_type =>
      [VStr (value track_type)]
  | I_get_track_name track_type track_index =>
      [VStr (value track_type); track_index]
  | I_grab_all_stills still_frame_source =>
      [still_frame_source]
  | I_grab_still =>
      []
  | I_import_into_timeline file_path import_options =>
      [file_path; asdict import_options]
  | I_insert_fusion_generator_into_timeline generator_name =>
      [generator_name]
  | I_insert_fusion_title_into_timeline title_name =>
      [title_name]
  | I_insert_generator_into_timeline generator_name =>
      [generator_name]
  | I_insert_oFX_generator_into_timeline generator_name =>
      [generator_name]
  | I_insert_title_into_timeline title_name =>
      [title_name]
  | I_set_current_timecode tiemcode =>
      [tiemcode]
  | I_set_name timeline_name =>
      [timeline_name]
  | I_set_setting setting_name setting_value =>
      [setting_name; setting_value]
  | I_set_track_name track_type track_index name =>
      [VStr (value track_type); track_index; name]
  | I_update_marker_custom_data frame_id custom_data =>
      [frame_id; custom_data]
  | I_set_start_timecode timecode =>
      [timecode]
  | I_get_start_timecode =>
      []
  | I_insert_fusion_composition_into_timeline =>
      []
  | I_get_unique_id =>
      []
  end.

(** What a method does with the answer of the handle. *)
Definition shape_of (i : invocation) : shape :=
  match i with
  | I_repr => Formats
  | I_add_marker _ _ _ _ _ _ => Forwards
  | I_apply_grade_from_drx _ _ _ => Forwards
  | I_create_compound_clip _ _ => Wraps TimelineItem.new
  | I_create_fusion_clip _ => Wraps TimelineItem.new
  | I_delete_marker_at_frame _ => Forwards
  | I_delete_marker_by_custom_data _ => Forwards
  | I_delete_marker_by_color _ => Forwards
  | I_duplicate_timeline _ => Wraps to_val
  | I_export _ _ _ => Forwards
  | I_get_current_clip_thumbnail_image => Forwards
  | I_get_current_timecode => Forwards
  | I_get_current_video_item => Wraps TimelineItem.new
  | I_get_end_frame => Forwards
  | I_get_item_list_in_track _ _ => WrapsEach TimelineItem.new
  | I_get_marker_by_custom_data _ => Forwards
  | I_get_marker_custom_data _ => Forwards
  | I_get_markers => Forwards
  | I_get_name => Forwards
  | I_get_setting _ => Forwards
  | I_get_start_frame => Forwards
  | I_get_track_count _ => Forwards
  | I_get_track_name _ _ => Forwards
  | I_grab_all_stills _ => WrapsEach (fun gallery_still => gallery_still)
  | I_grab_still => Wraps GalleryStill.new
  | I_import_into_timeline _ _ => Forwards
  | I_insert_fusion_generator_into_timeline _ => Wraps TimelineItem.new
  | I_insert_fusion_title_into_timeline _ => Wraps TimelineItem.new
  | I_insert_generator_into_timeline _ => Wraps TimelineItem.new
  | I_insert_oFX_generator_into_timeline _ => Wraps TimelineItem.new
  | I_insert_title_into_timeline _ => Wraps TimelineItem.new
  | I_set_current_timecode _ => Forwards
  | I_set_name _ => Forwards
  | I_set_setting _ _ => Forwards
  | I_set_track_name _ _ _ => Forwards
  | I_update_marker_custom_data _ _ => Forwards
  | I_set_start_timecode _ => Forwards
  | I_get_start_timecode => Forwards
  | I_insert_fusion_composition_into_timeline => Wraps TimelineItem.new
  | I_get_unique_id => Forwards
  end.

Definition delegated_call (E : env) (h : pyval) (i : invocation) : call :=
  {| receiver := h; operation := operation_name i; arguments := forwarded E i |}.

(** The instance a constructor leaves behind: one entry, the handle. *)
Definition holding (h : pyval) : instance :=
  {| inst_class := "Timeline"; inst_dict := [("timeline", h)] |}.

End Timeline.

(** ** media_storage.py *)

Module MediaStorage.

Definition __init__ (_local_davinci : pyval) : M unit :=
  storage <- invoke _local_davinci "GetMediaStorage" [];;
  set_self_attr "media_storage" storage.

(** [MediaStorage(_local_davinci)]. *)
Definition new (_local_davinci : pyval) : M pyval :=
  construct "MediaStorage" (__init__ _local_davinci).

Definition add_clip_mattes_to_media_pool (media_pool_item paths : pyval)
    (stero_eye : option pyval) : M pyval :=
  media_storage <- self_attr "media_storage";;
  invoke media_storage "AddClipMattesToMediaPool"
    [media_pool_item; paths; default_arg VNone stero_eye].

Definition add_item_list_to_meida_pool (item_path_list : pyval) : M pyval :=
  media_storage <- self_attr "media_storage";;
  answer <- invoke media_storage "AddItemListToMediaPool" [item_path_list];;
  handles <- iter answer;;
  ret (VList (map MediaPoolItem.new handles)).

Definition add_timeline_mattes_to_media_pool (paths : pyval) : M pyval :=
  media_storage <- self_attr "media_storage";;
  answer <- invoke media_storage "AddTimelineMattesToMediaPool" [paths];;
  handles <- iter answer;;
  ret (VList (map MediaPoolItem.new handles)).

Definition get_file_list (folder_path : pyval) : M pyval :=
  media_storage <- self_attr "media_storage";;
  folder <- str folder_path;;
  invoke media_storage "GetFileList" [folder].

Definition get_mounted_volume_list : M pyval :=
  media_storage <- self_attr "media_storage";;
  invoke media_storage "GetMountedVolumeList" [].

Definition get_sub_folder_list (folder_path : pyval) : M pyval :=
  media_storage <- self_attr "media_storage";;
  folder <- str folder_path;;
  invoke media_storage "GetSubFolderList" [folder].

Definition reveal_in_storage (path : pyval) : M pyval :=
  media_storage <- self_attr "media_storage";;
  path_str <- str path;;
  invoke media_storage "RevealInStorage" [path_str].

(** One constructor per method of the class other than the constructor, with
    the arguments of the call. *)
Inductive invocation : Type :=
| I_add_clip_mattes_to_media_pool (media_pool_item paths : pyval) (stero_eye : option pyval)
| I_add_item_list_to_meida_pool (item_path_list : pyval)
| I_add_timeline_mattes_to_media_pool (paths : pyval)
| I_get_file_list (folder_path : pyval)
| I_get_mounted_volume_list
| I_get_sub_folder_list (folder_path : pyval)
| I_reveal_in_storage (path : pyval).

Definition run (i : invocation) : M pyval :=
  match i with
  | I_add_clip_mattes_to_media_pool media_pool_item paths stero_eye =>
      add_clip_mattes_to_media_pool media_pool_item paths stero_eye
  | I_add_item_list_to_meida_pool item_path_list =>
      add_item_list_to_meida_pool item_path_list
  | I_add_timeline_mattes_to_media_pool paths =>
      add_timeline_mattes_to_media_pool paths
  | I_get_file_list folder_path =>
      get_file_list folder_path
  | I_get_mounted_volume_list =>
      get_mounted_volume_list
  | I_get_sub_folder_list folder_path =>
      get_sub_folder_list folder_path
  | I_reveal_in_storage path =>
      reveal_in_storage path
  end.

(** The operation of the underlying interface that a method stands for. *)
Definition operation_name (i : invocation) : string :=
  match i with
  | I_add_clip_mattes_to_media_pool _ _ _ => "AddClipMattesToMediaPool"
  | I_add_item_list_to_meida_pool _ => "AddItemListToMediaPool"
  | I_add_timeline_mattes_to_media_pool _ => "AddTimelineMattesToMediaPool"
  | I_get_file_list _ => "GetFileList"
  | I_get_mounted_volume_list => "GetMountedVolumeList"
  | I_get_sub_folder_list _ => "GetSubFolderList"
  | I_reveal_in_storage _ => "RevealInStorage"
  end.

(** The arguments the handle is expected to receive, as the code forwards
    them. *)
Definition forwarded (E : env) (i : invocation) : list pyval :=
  match i with
  | I_add_clip_mattes_to_media_pool media_pool_item paths stero_eye =>
      [media_pool_item; paths; default_arg VNone stero_eye]
  | I_add_item_list_to_meida_pool item_path_list =>
      [item_path_list]
  | I_add_timeline_mattes_to_media_pool paths =>
      [paths]
  | I_get_file_list folder_path =>
      [VStr (py_str E folder_path)]
  | I_get_mounted_volume_list =>
      []
  | I_get_sub_folder_list folder_path =>
      [VStr (py_str E folder_path)]
  | I_reveal_in_storage path =>
      [VStr (py_str E path)]
  end.

(** What a method does with the answer of the handle. *)
Definition shape_of (i : invocation) : shape :=
  match i with
  | I_add_clip_mattes_to_media_pool _ _ _ => Forwards
  | I_add_item_list_to_meida_pool _ => WrapsEach MediaPoolItem.new
  | I_add_timeline_mattes_to_media_pool _ => WrapsEach MediaPoolItem.new
  | I_get_file_list _ => Forwards
  | I_get_mounted_volume_list => Forwards
  | I_get_sub_folder_list _ => Forwards
  | I_reveal_in_storage _ => Forwards
  end.

Definition delegated_call (E : env) (h : pyval) (i : invocation) : call :=
  {| receiver := h; operation := operation_name i; arguments := forwarded E i |}.

(** The instance a constructor leaves behind: one entry, the handle. *)
Definition holding (h : pyval) : instance :=
  {| inst_class := "MediaStorage"; inst_dict := [("media_storage", h)] |}.

End MediaStorage.

(** ** Sample hosts and statements about raising *)

(** A host that answers every call with [v]. *)
Definition answering (v : pyval) : env :=
  {| respond := fun _ _ => Returns v; str_other := fun _ => "" |}.

(** A host on which every call raises [p]. *)
Definition failing (p : pyval) : env :=
  {| respond := fun _ _ => Raises p; str_other := fun _ => "" |}.

(** A method of [Timeline] raises exactly when the delegated call raises, and
    then with the exception of that call. *)
Definition Timeline_raises_only_with_call (E : env) (h : pyval)
    (tr : list call) (i : Timeline.invocation) : Prop :=
  forall e,
    fst (Timeline.run i E {| self := Timeline.holding h; trace := tr |})
      = Raise e
    <-> exists p,
          respond E tr (Timeline.delegated_call E h i) = Raises p
          /\ e = FromHost p.

(** The exceptions a method of a given shape can end with, given the outcome
    of its delegated call: the one the call raised, or the interpreter's
    complaint when a list-wrapping method is handed something it cannot walk
    through. *)
Definition raises_as (sh : shape) (o : outcome) (e : exn) : Prop :=
  (exists p, o = Raises p /\ e = FromHost p)
  \/ (exists v, o = Returns v /\ iterates sh = true /\ py_iter v = None
                /\ e = TypeError_not_iterable v).

(** ** Lists built by appending *)

Lemma fold_left_snoc_map {A B : Type} (f : A -> B) (l : list A) (acc : list B) :
  fold_left (fun done x => done ++ [f x]) l acc = acc ++ map f l.
Proof.
  revert acc.
  induction l as [| x l IH]; intros acc; simpl.
  - now rewrite app_nil_r.
  - rewrite IH, <- app_assoc. reflexivity.
Qed.

Lemma timeline_item_class_list_transfer_map (l : list TimelineItem.t) :
  timeline_item_class_list_transfer l = map TimelineItem.timeline_item l.
Proof.
  unfold timeline_item_class_list_transfer.
  now rewrite fold_left_snoc_map.
Qed.

(** ** Running a method *)

Ltac unfold_method :=
  cbv -[app map fold_left String.append respond py_str py_iter
        timeline_item_class_list_transfer TimelineItem.timeline_item asdict
        value default_arg];
  rewrite ?timeline_item_class_list_transfer_map.

Ltac case_answer :=
  match goal with
  | |- context [respond ?E ?tr ?c] => destruct (respond E tr c) as [?v | ?p]
  end.

Ltac case_iter :=
  match goal with
  | |- context [py_iter ?v] => destruct (py_iter v) as [?handles |]
  end.

Ltac settle_method :=
  unfold_method; case_answer; try case_iter;
  rewrite ?fold_left_snoc_map; reflexivity.

Lemma Timeline_run_spec (i : Timeline.invocation) (E : env) (h : pyval)
    (tr : list call) :
  Timeline.run i E {| self := Timeline.holding h; trace := tr |} =
  (expected E (Timeline.shape_of i)
     (respond E tr (Timeline.delegated_call E h i)),
   {| self := Timeline.holding h;
      trace := tr ++ [Timeline.delegated_call E h i] |}).
Proof. destruct i; settle_method. Qed.

Lemma MediaStorage_run_spec (i : MediaStorage.invocation) (E : env)
    (h : pyval) (tr : list call) :
  MediaStorage.run i E {| self := MediaStorage.holding h; trace := tr |} =
  (expected E (MediaStorage.shape_of i)
     (respond E tr (MediaStorage.delegated_call E h i)),
   {| self := MediaStorage.holding h;
      trace := tr ++ [MediaStorage.delegated_call E h i] |}).
Proof. destruct i; settle_method. Qed.

(** No method assigns to an attribute of [self], whatever [self] is. *)
Ltac case_lookup :=
  repeat match goal with
         | |- context [lookup ?k ?d] => destruct (lookup k d) as [?held |]
         end.

Ltac settle_any_self :=
  cbv -[app map fold_left String.append respond py_str py_iter lookup
        class_attrs timeline_item_class_list_transfer
        TimelineItem.timeline_item asdict value default_arg];
  case_lookup; try reflexivity;
  case_answer; try case_iter; reflexivity.

Lemma Timeline_run_keeps_self (i : Timeline.invocation) (E : env) (st : state) :
  self (snd (Timeline.run i E st)) = self st.
Proof. destruct st as [[cls d] tr]; destruct i; settle_any_self. Qed.

Lemma MediaStorage_run_keeps_self (i : MediaStorage.invocation) (E : env)
    (st : state) :
  self (snd (MediaStorage.run i E st)) = self st.
Proof. destruct st as [[cls d] tr]; destruct i; settle_any_self. Qed.

(** ** The helper [timeline_item_class_list_transfer] *)

(** C9: for every list of TimelineItem wrappers the transfer returns a list of
    the same length whose i-th element is the handle held by the i-th wrapper,
    in the same order, and the empty list for the empty list. *)
Theorem timeline_item_class_list_transfer_handles (l : list TimelineItem.t) :
  List.length (timeline_item_class_list_transfer l) = List.length l
  /\ (forall i,
        nth_error (timeline_item_class_list_transfer l) i
        = option_map TimelineItem.timeline_item (nth_error l i))
  /\ timeline_item_class_list_transfer [] = [].
Proof.
  rewrite timeline_item_class_list_transfer_map.
  split; [apply length_map |].
  split; [| reflexivity].
  intros i. apply nth_error_map.
Qed.

Example transfer_two :
  timeline_item_class_list_transfer
    [TimelineItem.Make (VHandle 3); TimelineItem.Make (VHandle 8)]
  = [VHandle 3; VHandle 8].
Proof. reflexivity. Qed.

(** ** Arguments that reach the handle *)

(** C8: whatever the ImportOptions value, ImportIntoTimeline receives the file
    path and a dict of exactly the nine fields with their current values, in
    declaration order; for a default-constructed ImportOptions these are the
    nine declared defaults. *)
Theorem import_into_timeline_options (E : env) (h file_path : pyval)
    (tr : list call) (o : ImportOptions) :
  trace (snd (Timeline.import_into_timeline file_path o E
                {| self := Timeline.holding h; trace := tr |}))
  = tr ++
    [ {| receiver := h; operation := "ImportIntoTimeline";
         arguments :=
           [ file_path;
             VDict
               [ (VStr "sourceClipsPath", VStr (sourceClipsPath o));
                 (VStr "sourceClipsFolders", VStr (sourceClipsFolders o));
                 (VStr "autoImportSourceClipsIntoMediaPool",
                  VBool (autoImportSourceClipsIntoMediaPool o));
                 (VStr "ignoreFileExtensionsWhenMatching",
                  VBool (ignoreFileExtensionsWhenMatching o));
                 (VStr "linkToSourceCameraFiles",
                  VBool (linkToSourceCameraFiles o));
                 (VStr "useSizingInfo", VBool (useSizingInfo o));
                 (VStr "importMultiChannelAudioTracksAsLinkedGroups",
                  VBool (importMultiChannelAudioTracksAsLinkedGroups o));
                 (VStr "insertAdditionalTracks",
                  VBool (insertAdditionalTracks o));
                 (VStr "insertWithOffset", VStr (insertWithOffset o)) ] ] |} ]
  /\ asdict ImportOptions_default
     = VDict
         [ (VStr "sourceClipsPath", VStr "");
           (VStr "sourceClipsFolders", VStr "");
           (VStr "autoImportSourceClipsIntoMediaPool", VBool true);
           (VStr "ignoreFileExtensionsWhenMatching", VBool false);
           (VStr "linkToSourceCameraFiles", VBool false);
           (VStr "useSizingInfo", VBool false);
           (VStr "importMultiChannelAudioTracksAsLinkedGroups", VBool false);
           (VStr "insertAdditionalTracks", VBool true);
           (VStr "insertWithOffset", VStr "00:00:00:00") ].
Proof.
  split; [| reflexivity].
  change (Timeline.import_into_timeline file_path o)
    with (Timeline.run (Timeline.I_import_into_timeline file_path o)).
  rewrite Timeline_run_spec. reflexivity.
Qed.

(** C7: for every integer track_index, inside or outside the documented range,
    get_track_name and set_track_name hand the index to the handle and return
    what the handle answers; no invocation of any method of either class is
    turned away before its arguments reach the handle. *)
Theorem track_index_is_not_checked (E : env) (h : pyval) (tr : list call)
    (track_type : TrackType) (z : Z) (name : pyval) :
  Timeline.get_track_name track_type (VInt z) E
    {| self := Timeline.holding h; trace := tr |}
  = (match respond E tr
             {| receiver := h; operation := "GetTrackName";
                arguments := [VStr (value track_type); VInt z] |} with
     | Returns v => Ok v
     | Raises p => Raise (FromHost p)
     end,
     {| self := Timeline.holding h;
        trace := tr ++ [ {| receiver := h; operation := "GetTrackName";
                            arguments := [VStr (value track_type); VInt z] |} ]
     |})
  /\ Timeline.set_track_name track_type (VInt z) name E
       {| self := Timeline.holding h; trace := tr |}
     = (match respond E tr
                {| receiver := h; operation := "SetTrackName";
                   arguments := [VStr (value track_type); VInt z; name] |} with
        | Returns v => Ok v
        | Raises p => Raise (FromHost p)
        end,
        {| self := Timeline.holding h;
           trace := tr ++ [ {| receiver := h; operation := "SetTrackName";
                               arguments :=
                                 [VStr (value track_type); VInt z; name] |} ]
        |})
  /\ (forall i,
        trace (snd (Timeline.run i E
                      {| self := Timeline.holding h; trace := tr |}))
        = tr ++ [ {| receiver := h; operation := Timeline.operation_name i;
                     arguments := Timeline.forwarded E i |} ])
  /\ (forall i,
        trace (snd (MediaStorage.run i E
                      {| self := MediaStorage.holding h; trace := tr |}))
        = tr ++ [ {| receiver := h; operation := MediaStorage.operation_name i;
                     arguments := MediaStorage.forwarded E i |} ]).
Proof.
  split; [| split; [| split]].
  - unfold_method; case_answer; reflexivity.
  - unfold_method; case_answer; reflexivity.
  - intros i. rewrite Timeline_run_spec. reflexivity.
  - intros i. rewrite MediaStorage_run_spec. reflexivity.
Qed.

Example track_index_zero_is_forwarded :
  trace (snd (Timeline.get_track_name VIDEO_TRACK (VInt 0) (answering VNone)
                {| self := Timeline.holding (VHandle 1); trace := [] |}))
  = [ {| receiver := VHandle 1; operation := "GetTrackName";
         arguments := [VStr "video"; VInt 0] |} ].
Proof. reflexivity. Qed.

(** ** The printed form of a timeline *)

Lemma prefixed_differs (s : string) : ("f" ++ s)%string <> s.
Proof.
  intros H. apply (f_equal String.length) in H. simpl in H. lia.
Qed.

(** C10: when GetName returns a string n, __repr__ returns 'Timeline:f'
    followed by n, with the letter f between the colon and the name, which is
    never the string 'Timeline:' followed by n. *)
Theorem repr_keeps_the_letter_f (E : env) (h : pyval) (tr : list call)
    (n : string)
    (Hname : respond E tr
               {| receiver := h; operation := "GetName"; arguments := [] |}
             = Returns (VStr n)) :
  fst (Timeline.__repr__ E {| self := Timeline.holding h; trace := tr |})
  = Ok (VStr ("Timeline:f" ++ n)%string)
  /\ ("Timeline:f" ++ n)%string <> ("Timeline:" ++ n)%string.
Proof.
  split.
  - unfold_method. rewrite Hname. reflexivity.
  - simpl. intros H. injection H as H. now apply prefixed_differs in H.
Qed.

Lemma repr_keeps_the_letter_f_witness :
  respond (answering (VStr "Edit 1")) []
    {| receiver := VHandle 1; operation := "GetName"; arguments := [] |}
  = Returns (VStr "Edit 1")
  /\ fst (Timeline.__repr__ (answering (VStr "Edit 1"))
            {| self := Timeline.holding (VHandle 1); trace := [] |})
     = Ok (VStr "Timeline:fEdit 1").
Proof.
  split; [reflexivity |].
  exact (proj1 (repr_keeps_the_letter_f (answering (VStr "Edit 1"))
                  (VHandle 1) [] "Edit 1" eq_refl)).
Defined.

(** ** Exceptions *)

Lemma expected_raises (E : env) (sh : shape) (o : outcome) (e : exn) :
  expected E sh o = Raise e <-> raises_as sh o e.
Proof.
  unfold raises_as. destruct o as [v | p]; simpl.
  - split.
    + intros H. right. exists v.
      destruct sh; simpl in *; try discriminate.
      destruct (py_iter v); [discriminate |].
      injection H as <-. repeat split; reflexivity.
    + intros [(p & Hp & _) | (w & Hw & Hsh & Hit & ->)]; [discriminate |].
      injection Hw as <-.
      destruct sh; simpl in *; try discriminate.
      now rewrite Hit.
  - split.
    + intros H. injection H as <-. left. exists p. split; reflexivity.
    + intros [(q & Hq & ->) | (w & Hw & _)]; [| discriminate].
      now injection Hq as <-.
Qed.

(** C4, as amended: no method of Timeline or MediaStorage catches anything;
    whenever the delegated call raises, the method ends with exactly that
    exception.  A method ends with an exception only then, or, for the methods
    that walk through the answer to wrap its elements, when the call returned
    a value that is not iterable, which the interpreter reports as a
    TypeError. *)
Theorem wrapper_exceptions (E : env) (h : pyval) (tr : list call) :
  (forall i e,
     fst (Timeline.run i E {| self := Timeline.holding h; trace := tr |})
       = Raise e
     <-> raises_as (Timeline.shape_of i)
           (respond E tr (Timeline.delegated_call E h i)) e)
  /\ (forall i e,
        fst (MediaStorage.run i E
               {| self := MediaStorage.holding h; trace := tr |})
          = Raise e
        <-> raises_as (MediaStorage.shape_of i)
              (respond E tr (MediaStorage.delegated_call E h i)) e).
Proof.
  split; intros i e.
  - rewrite Timeline_run_spec. apply expected_raises.
  - rewrite MediaStorage_run_spec. apply expected_raises.
Qed.

(** C4, as stated, fails: GetItemListInTrack returns None without raising and
    get_item_list_in_track ends with a TypeError of its own. *)
Lemma get_item_list_in_track_raises_on_None :
  ~ Timeline_raises_only_with_call (answering VNone) (VHandle 1) []
      (Timeline.I_get_item_list_in_track VIDEO_TRACK (VInt 1)).
Proof.
  intros H.
  destruct (proj1 (H (TypeError_not_iterable VNone)) eq_refl) as (p & Hp & _).
  discriminate Hp.
Qed.

Example get_item_list_in_track_on_None :
  fst (Timeline.get_item_list_in_track VIDEO_TRACK (VInt 1) (answering VNone)
         {| self := Timeline.holding (VHandle 1); trace := [] |})
  = Raise (TypeError_not_iterable VNone).
Proof. reflexivity. Qed.

Example add_marker_passes_the_exception_on :
  fst (Timeline.add_marker VNone VNone VNone VNone VNone VNone
         (failing (VStr "boom"))
         {| self := Timeline.holding (VHandle 1); trace := [] |})
  = Raise (FromHost (VStr "boom")).
Proof. reflexivity. Qed.

(** ** The state of a wrapper *)

Lemma Timeline_new_spec (h : pyval) (E : env) (st : state) :
  Timeline.new h E st = (Ok (Timeline.to_val h), st).
Proof. destruct st as [s tr]. reflexivity. Qed.

Lemma MediaStorage_new_spec (d : pyval) (E : env) (st : state) :
  MediaStorage.new d E st
  = (match respond E (trace st)
             {| receiver := d; operation := "GetMediaStorage";
                arguments := [] |} with
     | Returns v => Ok (VObj "MediaStorage" [("media_storage", v)])
     | Raises p => Raise (FromHost p)
     end,
     {| self := self st;
        trace := trace st ++ [ {| receiver := d; operation := "GetMediaStorage";
                                  arguments := [] |} ] |}).
Proof.
  destruct st as [s tr].
  cbv -[app respond]. case_answer; reflexivity.
Qed.

(** C5: a constructed Timeline or MediaStorage has one attribute, the handle
    (for MediaStorage the answer of GetMediaStorage), and no method of either
    class changes the attributes of [self]: the handle stays and nothing is
    added, whether the method returns or raises. *)
Theorem wrapper_state_is_one_handle (E : env) (st : state) :
  (forall h, fst (Timeline.new h E st) = Ok (VObj "Timeline" [("timeline", h)]))
  /\ (forall d,
        fst (MediaStorage.new d E st)
        = match respond E (trace st)
                  {| receiver := d; operation := "GetMediaStorage";
                     arguments := [] |} with
          | Returns v => Ok (VObj "MediaStorage" [("media_storage", v)])
          | Raises p => Raise (FromHost p)
          end)
  /\ (forall i, self (snd (Timeline.run i E st)) = self st)
  /\ (forall i, self (snd (MediaStorage.run i E st)) = self st)
  /\ (forall h i,
        self (snd (Timeline.run i E
                     {| self := Timeline.holding h; trace := trace st |}))
        = {| inst_class := "Timeline"; inst_dict := [("timeline", h)] |})
  /\ (forall h i,
        self (snd (MediaStorage.run i E
                     {| self := MediaStorage.holding h; trace := trace st |}))
        = {| inst_class := "MediaStorage";
             inst_dict := [("media_storage", h)] |}).
Proof.
  split; [| split; [| split; [| split; [| split]]]].
  - intros h. now rewrite Timeline_new_spec.
  - intros d. now rewrite MediaStorage_new_spec.
  - intros i. apply Timeline_run_keeps_self.
  - intros i. apply MediaStorage_run_keeps_self.
  - intros h i. now rewrite Timeline_run_keeps_self.
  - intros h i. now rewrite MediaStorage_run_keeps_self.
Qed.

(** ** One call per invocation *)

(** C6: every invocation of a method of Timeline or MediaStorage adds exactly
    one call to those the host has received, the call of the corresponding
    operation on the held handle; invoking the same method a second time adds
    that call a second time, whatever the first invocation answered. *)
Theorem one_delegated_call_per_invocation (E : env) (h : pyval)
    (tr : list call) :
  (forall i,
     let st := {| self := Timeline.holding h; trace := tr |} in
     let c := {| receiver := h; operation := Timeline.operation_name i;
                 arguments := Timeline.forwarded E i |} in
     trace (snd (Timeline.run i E st)) = tr ++ [c]
     /\ trace (snd (Timeline.run i E (snd (Timeline.run i E st))))
        = tr ++ [c; c])
  /\ (forall i,
        let st := {| self := MediaStorage.holding h; trace := tr |} in
        let c := {| receiver := h; operation := MediaStorage.operation_name i;
                    arguments := MediaStorage.forwarded E i |} in
        trace (snd (MediaStorage.run i E st)) = tr ++ [c]
        /\ trace (snd (MediaStorage.run i E (snd (MediaStorage.run i E st))))
           = tr ++ [c; c]).
Proof.
  split; intros i st c; subst st c.
  - rewrite !Timeline_run_spec. simpl. rewrite Timeline_run_spec. simpl.
    split; [reflexivity |]. now rewrite <- app_assoc.
  - rewrite !MediaStorage_run_spec. simpl. rewrite MediaStorage_run_spec. simpl.
    split; [reflexivity |]. now rewrite <- app_assoc.
Qed.

Example get_markers_twice :
  trace (snd (Timeline.get_markers (answering (VDict []))
                (snd (Timeline.get_markers (answering (VDict []))
                        {| self := Timeline.holding (VHandle 1);
                           trace := [] |}))))
  = [ {| receiver := VHandle 1; operation := "GetMarkers"; arguments := [] |};
      {| receiver := VHandle 1; operation := "GetMarkers"; arguments := [] |} ].
Proof. reflexivity. Qed.

(** ** Path arguments *)

(** C3, as amended: get_file_list, get_sub_folder_list, reveal_in_storage and
    apply_grade_from_drx hand the handle the string form of their path
    argument; export and import_into_timeline hand over the argument as it was
    given, which is its string form whenever the argument is a string. *)
Theorem path_arguments (E : env) (h p : pyval) (tr : list call) :
  (trace (snd (MediaStorage.get_file_list p E
                 {| self := MediaStorage.holding h; trace := tr |}))
   = tr ++ [ {| receiver := h; operation := "GetFileList";
                arguments := [VStr (py_str E p)] |} ])
  /\ (trace (snd (MediaStorage.get_sub_folder_list p E
                    {| self := MediaStorage.holding h; trace := tr |}))
      = tr ++ [ {| receiver := h; operation := "GetSubFolderList";
                   arguments := [VStr (py_str E p)] |} ])
  /\ (trace (snd (MediaStorage.reveal_in_storage p E
                    {| self := MediaStorage.holding h; trace := tr |}))
      = tr ++ [ {| receiver := h; operation := "RevealInStorage";
                   arguments := [VStr (py_str E p)] |} ])
  /\ (forall grade_mode timeline_items,
        trace (snd (Timeline.apply_grade_from_drx p grade_mode timeline_items E
                      {| self := Timeline.holding h; trace := tr |}))
        = tr ++ [ {| receiver := h; operation := "ApplyGradeFromDRX";
                     arguments :=
                       [VStr (py_str E p); grade_mode; timeline_items] |} ])
  /\ (forall export_type export_subtype,
        trace (snd (Timeline.export p export_type export_subtype E
                      {| self := Timeline.holding h; trace := tr |}))
        = tr ++ [ {| receiver := h; operation := "Export";
                     arguments :=
                       [p; export_type; default_arg VNone export_subtype] |} ])
  /\ (forall import_options,
        trace (snd (Timeline.import_into_timeline p import_options E
                      {| self := Timeline.holding h; trace := tr |}))
        = tr ++ [ {| receiver := h; operation := "ImportIntoTimeline";
                     arguments := [p; asdict import_options] |} ])
  /\ (forall s, VStr (py_str E (VStr s)) = VStr s).
Proof.
  split; [| split; [| split; [| split; [| split; [| split]]]]].
  - change (MediaStorage.get_file_list p)
      with (MediaStorage.run (MediaStorage.I_get_file_list p)).
    now rewrite MediaStorage_run_spec.
  - change (MediaStorage.get_sub_folder_list p)
      with (MediaStorage.run (MediaStorage.I_get_sub_folder_list p)).
    now rewrite MediaStorage_run_spec.
  - change (MediaStorage.reveal_in_storage p)
      with (MediaStorage.run (MediaStorage.I_reveal_in_storage p)).
    now rewrite MediaStorage_run_spec.
  - intros g t.
    change (Timeline.apply_grade_from_drx p g t)
      with (Timeline.run (Timeline.I_apply_grade_from_drx p g t)).
    now rewrite Timeline_run_spec.
  - intros t s.
    change (Timeline.export p t s)
      with (Timeline.run (Timeline.I_export p t s)).
    now rewrite Timeline_run_spec.
  - intros o.
    change (Timeline.import_into_timeline p o)
      with (Timeline.run (Timeline.I_import_into_timeline p o)).
    now rewrite Timeline_run_spec.
  - reflexivity.
Qed.

(** C3, as stated, fails: given a path object, export hands the handle the
    path object and not its string form. *)
Lemma export_forwards_path_object :
  trace (snd (Timeline.export (VPath "/tmp/cut.drt") (VStr "drt") None
                (answering (VBool true))
                {| self := Timeline.holding (VHandle 1); trace := [] |}))
  <> [ {| receiver := VHandle 1; operation := "Export";
          arguments :=
            [ VStr (py_str (answering (VBool true)) (VPath "/tmp/cut.drt"));
              VStr "drt"; VNone ] |} ].
Proof. cbn. discriminate. Qed.

Example get_file_list_coerces_path_object :
  trace (snd (MediaStorage.get_file_list (VPath "/media") (answering (VList []))
                {| self := MediaStorage.holding (VHandle 2); trace := [] |}))
  = [ {| receiver := VHandle 2; operation := "GetFileList";
         arguments := [VStr "/media"] |} ].
Proof. reflexivity. Qed.

(** ** Wrappers among the arguments *)

Lemma create_compound_clip_forwards_handles (E : env) (h clipinfo : pyval)
    (tr : list call) (timeline_items : list TimelineItem.t) :
  trace (snd (Timeline.create_compound_clip timeline_items clipinfo E
                {| self := Timeline.holding h; trace := tr |}))
  = tr ++ [ {| receiver := h; operation := "CreateCompoundClip";
               arguments :=
                 [ VList (map TimelineItem.timeline_item timeline_items);
                   clipinfo ] |} ].
Proof.
  change (Timeline.create_compound_clip timeline_items clipinfo)
    with (Timeline.run (Timeline.I_create_compound_clip timeline_items clipinfo)).
  now rewrite Timeline_run_spec.
Qed.

(** C2, at the failing inputs: ApplyGradeFromDRX receives the list of
    TimelineItem wrappers and AddClipMattesToMediaPool the MediaPoolItem
    wrapper, not the handles they hold, while CreateCompoundClip, given the
    same wrappers, receives the held handles. *)
Theorem wrappers_reach_the_handle :
  trace (snd (Timeline.apply_grade_from_drx (VStr "look.drx") (VInt 0)
                (VList [TimelineItem.new (VHandle 5)]) (answering (VBool true))
                {| self := Timeline.holding (VHandle 1); trace := [] |}))
  = [ {| receiver := VHandle 1; operation := "ApplyGradeFromDRX";
         arguments :=
           [ VStr "look.drx"; VInt 0;
             VList [VObj "TimelineItem" [("timeline_item", VHandle 5)]] ] |} ]
  /\ VList [VObj "TimelineItem" [("timeline_item", VHandle 5)]]
     <> VList [VHandle 5]
  /\ trace (snd (MediaStorage.add_clip_mattes_to_media_pool
                   (MediaPoolItem.new (VHandle 9)) (VList [VStr "matte.exr"])
                   None (answering (VBool true))
                   {| self := MediaStorage.holding (VHandle 2); trace := [] |}))
     = [ {| receiver := VHandle 2; operation := "AddClipMattesToMediaPool";
            arguments :=
              [ VObj "MediaPoolItem" [("media_pool_item", VHandle 9)];
                VList [VStr "matte.exr"]; VNone ] |} ]
  /\ VObj "MediaPoolItem" [("media_pool_item", VHandle 9)] <> VHandle 9
  /\ trace (snd (Timeline.create_compound_clip
                   [TimelineItem.Make (VHandle 5)] (VDict [])
                   (answering (VHandle 6))
                   {| self := Timeline.holding (VHandle 1); trace := [] |}))
     = [ {| receiver := VHandle 1; operation := "CreateCompoundClip";
            arguments := [VList [VHandle 5]; VDict []] |} ].
Proof.
  split; [reflexivity |].
  split; [discriminate |].
  split; [reflexivity |].
  split; [discriminate | reflexivity].
Qed.

(** ** Wrappers among the results *)

Lemma grab_still_wraps (E : env) (h : pyval) (tr : list call) :
  fst (Timeline.grab_still E {| self := Timeline.holding h; trace := tr |})
  = match respond E tr
            {| receiver := h; operation := "GrabStill"; arguments := [] |} with
    | Returns v => Ok (GalleryStill.new v)
    | Raises p => Raise (FromHost p)
    end.
Proof. unfold_method; case_answer; reflexivity. Qed.

Lemma get_item_list_in_track_wraps_each (E : env) (h index : pyval)
    (tr : list call) (track_type : TrackType) (handles : list pyval) :
  respond E tr
    {| receiver := h; operation := "GetItemListInTrack";
       arguments := [VStr (value track_type); index] |}
  = Returns (VList handles) ->
  fst (Timeline.get_item_list_in_track track_type index E
         {| self := Timeline.holding h; trace := tr |})
  = Ok (VList (map TimelineItem.new handles)).
Proof.
  intros H. unfold_method. rewrite H. cbv [py_iter]. cbv beta iota.
  now rewrite fold_left_snoc_map.
Qed.

Lemma grab_all_stills_copies (E : env) (h still_frame_source : pyval)
    (tr : list call) (handles : list pyval) :
  respond E tr
    {| receiver := h; operation := "GrabAllStills";
       arguments := [still_frame_source] |}
  = Returns (VList handles) ->
  fst (Timeline.grab_all_stills still_frame_source E
         {| self := Timeline.holding h; trace := tr |})
  = Ok (VList handles).
Proof.
  intros H. unfold_method. rewrite H. cbv [py_iter]. cbv beta iota.
  now rewrite fold_left_snoc_map, map_id.
Qed.

(** C1, at the failing input: when GrabAllStills returns two handles,
    grab_all_stills returns the two bare handles and not GalleryStill wrappers
    around them, while grab_still and get_item_list_in_track wrap what they
    receive. *)
Theorem grab_all_stills_returns_bare_handles :
  fst (Timeline.grab_all_stills (VInt 1)
         (answering (VList [VHandle 7; VHandle 8]))
         {| self := Timeline.holding (VHandle 1); trace := [] |})
  = Ok (VList [VHandle 7; VHandle 8])
  /\ VList [VHandle 7; VHandle 8]
     <> VList [GalleryStill.new (VHandle 7); GalleryStill.new (VHandle 8)]
  /\ fst (Timeline.grab_still (answering (VHandle 7))
            {| self := Timeline.holding (VHandle 1); trace := [] |})
     = Ok (GalleryStill.new (VHandle 7))
  /\ fst (Timeline.get_item_list_in_track VIDEO_TRACK (VInt 1)
            (answering (VList [VHandle 7; VHandle 8]))
            {| self := Timeline.holding (VHandle 1); trace := [] |})
     = Ok (VList [TimelineItem.new (VHandle 7); TimelineItem.new (VHandle 8)]).
Proof.
  split; [reflexivity |].
  split; [discriminate |].
  split; reflexivity.
Qed.

(** ** Instances with other attributes, and instances without the handle *)

Ltac settle_with_attr H :=
  cbv -[app map fold_left String.append respond py_str py_iter lookup
        class_attrs timeline_item_class_list_transfer
        TimelineItem.timeline_item asdict value default_arg];
  rewrite ?H; rewrite ?timeline_item_class_list_transfer_map;
  try (case_answer; try case_iter; rewrite ?fold_left_snoc_map);
  reflexivity.


Lemma MediaStorage_run_with_attr (i : MediaStorage.invocation) (E : env)
    (s : instance) (tr : list call) (h : pyval) :
  lookup "media_storage" (inst_dict s) = Some h ->
  MediaStorage.run i E {| self := s; trace := tr |}
  = (expected E (MediaStorage.shape_of i)
       (respond E tr (MediaStorage.delegated_call E h i)),
     {| self := s; trace := tr ++ [MediaStorage.delegated_call E h i] |}).
Proof.
  destruct s as [cls d]. simpl. intros H. destruct i; settle_with_attr H.
Qed.







(** ** Constructing, and constructing again *)



Example timeline_init_twice :
  self (snd (Timeline.__init__ (VHandle 2) (answering VNone)
               {| self := Timeline.holding (VHandle 1); trace := [] |}))
  = Timeline.holding (VHandle 2).
Proof. reflexivity. Qed.

(** X4: constructing a MediaStorage asks the object it is given for
    GetMediaStorage once, with no arguments.  When that call returns, the new
    object holds the answer, and a method invoked on it delegates to the
    answer, not to the object the constructor was given: after construction
    and one method the host has received exactly those two calls, in that
    order. *)
Theorem media_storage_is_built_from_one_call (E : env) (s : instance)
    (tr : list call) (local_davinci storage : pyval)
    (i : MediaStorage.invocation)
    (Hget : respond E tr
              {| receiver := local_davinci; operation := "GetMediaStorage";
                 arguments := [] |}
            = Returns storage) :
  MediaStorage.new local_davinci E {| self := s; trace := tr |}
  = (Ok (VObj "MediaStorage" [("media_storage", storage)]),
     {| self := s;
        trace := tr ++ [ {| receiver := local_davinci;
                            operation := "GetMediaStorage";
                            arguments := [] |} ] |})
  /\ trace (snd (MediaStorage.run i E
                   {| self := {| inst_class := "MediaStorage";
                                 inst_dict := [("media_storage", storage)] |};
                      trace := trace (snd (MediaStorage.new local_davinci E
                                             {| self := s; trace := tr |})) |}))
     = tr ++ [ {| receiver := local_davinci; operation := "GetMediaStorage";
                  arguments := [] |};
               MediaStorage.delegated_call E storage i ].
Proof.
  rewrite MediaStorage_new_spec. cbn [self trace]. rewrite Hget.
  split; [reflexivity |].
  cbn [snd trace].
  change {| inst_class := "MediaStorage";
            inst_dict := [("media_storage", storage)] |}
    with (MediaStorage.holding storage).
  rewrite MediaStorage_run_spec. cbn [snd trace]. now rewrite <- app_assoc.
Qed.

Lemma media_storage_is_built_from_one_call_witness :
  fst (MediaStorage.new (VHandle 0) (answering (VHandle 3))
         {| self := Timeline.holding (VHandle 1); trace := [] |})
  = Ok (VObj "MediaStorage" [("media_storage", VHandle 3)]).
Proof.
  exact (f_equal fst
           (proj1 (media_storage_is_built_from_one_call
                     (answering (VHandle 3)) (Timeline.holding (VHandle 1)) []
                     (VHandle 0) (VHandle 3)
                     MediaStorage.I_get_mounted_volume_list eq_refl))).
Defined.

(** X5: when DuplicateTimeline returns, duplicate_timeline returns a new
    Timeline object whose only attribute is the returned handle; the Timeline
    it was invoked on still holds its own handle, and a method invoked on the
    copy delegates to the copy's handle. *)
Theorem duplicate_timeline_gives_independent_wrapper (E : env) (h name : pyval)
    (tr : list call) (copy : pyval) (i : Timeline.invocation)
    (Hdup : respond E tr
              {| receiver := h; operation := "DuplicateTimeline";
                 arguments := [name] |}
            = Returns copy) :
  Timeline.duplicate_timeline name E
    {| self := Timeline.holding h; trace := tr |}
  = (Ok (VObj "Timeline" [("timeline", copy)]),
     {| self := Timeline.holding h;
        trace := tr ++ [ {| receiver := h; operation := "DuplicateTimeline";
                            arguments := [name] |} ] |})
  /\ trace (snd (Timeline.run i E
                   {| self := {| inst_class := "Timeline";
                                 inst_dict := [("timeline", copy)] |};
                      trace := trace (snd (Timeline.duplicate_timeline name E
                                             {| self := Timeline.holding h;
                                                trace := tr |})) |}))
     = tr ++ [ {| receiver := h; operation := "DuplicateTimeline";
                  arguments := [name] |};
               Timeline.delegated_call E copy i ].
Proof.
  assert (Hrun : Timeline.duplicate_timeline name E
                   {| self := Timeline.holding h; trace := tr |}
                 = (Ok (VObj "Timeline" [("timeline", copy)]),
                    {| self := Timeline.holding h;
                       trace := tr ++ [ {| receiver := h;
                                           operation := "DuplicateTimeline";
                                           arguments := [name] |} ] |})).
  { unfold_method. rewrite Hdup. reflexivity. }
  rewrite Hrun. split; [reflexivity |].
  cbn [snd trace].
  change {| inst_class := "Timeline"; inst_dict := [("timeline", copy)] |}
    with (Timeline.holding copy).
  rewrite Timeline_run_spec. cbn [snd trace]. now rewrite <- app_assoc.
Qed.

Lemma duplicate_timeline_gives_independent_wrapper_witness :
  fst (Timeline.duplicate_timeline (VStr "Edit 1 copy")
         (answering (VHandle 9))
         {| self := Timeline.holding (VHandle 1); trace := [] |})
  = Ok (VObj "Timeline" [("timeline", VHandle 9)]).
Proof.
  exact (f_equal fst
           (proj1 (duplicate_timeline_gives_independent_wrapper
                     (answering (VHandle 9)) (VHandle 1) (VStr "Edit 1 copy")
                     [] (VHandle 9) Timeline.I_get_name eq_refl))).
Defined.

(** ** Answers that are not what the wrapper expects *)

(** X6: a method of Timeline that wraps a single handle does not look at the
    handle.  Whatever the delegated call returns, None included, the method
    returns a wrapper object around it, so its result is never None. *)
Theorem single_answer_is_wrapped_unchecked (E : env) (h : pyval)
    (tr : list call) (i : Timeline.invocation) (mk : pyval -> pyval)
    (v : pyval)
    (Hshape : Timeline.shape_of i = Wraps mk)
    (Hanswer : respond E tr (Timeline.delegated_call E h i) = Returns v) :
  fst (Timeline.run i E {| self := Timeline.holding h; trace := tr |})
  = Ok (mk v)
  /\ mk v <> VNone
  /\ exists cls attr, mk v = VObj cls [(attr, v)].
Proof.
  rewrite Timeline_run_spec, Hanswer. cbn [fst expected]. rewrite Hshape.
  split; [reflexivity |].
  destruct i; simpl in Hshape; try discriminate Hshape;
    injection Hshape as <-; (split; [discriminate | eexists; eexists; reflexivity]).
Qed.

Lemma single_answer_is_wrapped_unchecked_witness :
  fst (Timeline.run Timeline.I_get_current_video_item (answering VNone)
         {| self := Timeline.holding (VHandle 1); trace := [] |})
  = Ok (VObj "TimelineItem" [("timeline_item", VNone)]).
Proof.
  exact (proj1 (single_answer_is_wrapped_unchecked (answering VNone)
                  (VHandle 1) [] Timeline.I_get_current_video_item
                  TimelineItem.new VNone eq_refl eq_refl)).
Defined.

(** X7: when the delegated call of add_item_list_to_meida_pool or
    add_timeline_mattes_to_media_pool returns a list, the method returns a
    list of the same length whose i-th element is a MediaPoolItem wrapper
    around the i-th element of the answer; an empty answer gives an empty
    list. *)
Theorem media_pool_items_are_wrapped_in_order (E : env) (h : pyval)
    (tr : list call) (i : MediaStorage.invocation) (handles : list pyval)
    (Hiter : iterates (MediaStorage.shape_of i) = true)
    (Hanswer : respond E tr (MediaStorage.delegated_call E h i)
               = Returns (VList handles)) :
  exists items,
    fst (MediaStorage.run i E
           {| self := MediaStorage.holding h; trace := tr |})
    = Ok (VList items)
    /\ List.length items = List.length handles
    /\ (forall n, nth_error items n
                  = option_map MediaPoolItem.new (nth_error handles n))
    /\ match handles with
       | [] => items = []
       | _ :: _ => items <> []
       end.
Proof.
  exists (map MediaPoolItem.new handles).
  rewrite MediaStorage_run_spec, Hanswer.
  split.
  - destruct i; simpl in Hiter; try discriminate Hiter; reflexivity.
  - split; [apply length_map |].
    split; [intros n; apply nth_error_map |].
    destruct handles; [reflexivity | discriminate].
Qed.

Lemma media_pool_items_are_wrapped_in_order_witness :
  exists items,
    fst (MediaStorage.run (MediaStorage.I_add_timeline_mattes_to_media_pool
                             (VList [VStr "a.exr"; VStr "b.exr"]))
           (answering (VList [VHandle 5; VHandle 6]))
           {| self := MediaStorage.holding (VHandle 2); trace := [] |})
    = Ok (VList items)
    /\ List.length items = 2.
Proof.
  destruct (media_pool_items_are_wrapped_in_order
              (answering (VList [VHandle 5; VHandle 6])) (VHandle 2) []
              (MediaStorage.I_add_timeline_mattes_to_media_pool
                 (VList [VStr "a.exr"; VStr "b.exr"]))
              [VHandle 5; VHandle 6] eq_refl eq_refl)
    as (items & Hrun & Hlen & _).
  exists items. split; [exact Hrun | exact Hlen].
Defined.

(** X8: when the delegated call of a list-wrapping method of MediaStorage
    returns something that cannot be iterated over, the method ends with a
    TypeError, but only after the call has reached the host: the call is in
    the trace, so whatever the host did on it has been done. *)
Theorem type_error_comes_after_the_call (E : env) (h : pyval)
    (tr : list call) (i : MediaStorage.invocation) (v : pyval)
    (Hiter : iterates (MediaStorage.shape_of i) = true)
    (Hanswer : respond E tr (MediaStorage.delegated_call E h i) = Returns v)
    (Hbad : py_iter v = None) :
  MediaStorage.run i E {| self := MediaStorage.holding h; trace := tr |}
  = (Raise (TypeError_not_iterable v),
     {| self := MediaStorage.holding h;
        trace := tr ++ [MediaStorage.delegated_call E h i] |}).
Proof.
  rewrite MediaStorage_run_spec, Hanswer.
  destruct i; simpl in Hiter; try discriminate Hiter;
    cbn [expected finish MediaStorage.shape_of]; now rewrite Hbad.
Qed.

Lemma type_error_comes_after_the_call_witness :
  MediaStorage.run (MediaStorage.I_add_item_list_to_meida_pool
                      (VList [VStr "/media/a.mov"]))
    (answering VNone)
    {| self := MediaStorage.holding (VHandle 2); trace := [] |}
  = (Raise (TypeError_not_iterable VNone),
     {| self := MediaStorage.holding (VHandle 2);
        trace := [ {| receiver := VHandle 2;
                      operation := "AddItemListToMediaPool";
                      arguments := [VList [VStr "/media/a.mov"]] |} ] |}).
Proof.
  exact (type_error_comes_after_the_call (answering VNone) (VHandle 2) []
           (MediaStorage.I_add_item_list_to_meida_pool
              (VList [VStr "/media/a.mov"]))
           VNone eq_refl eq_refl eq_refl).
Defined.

(** ** Wrapping and unwrapping timeline items *)

(** X9: the items that get_item_list_in_track returns for a track can be
    handed straight to create_fusion_clip or create_compound_clip: when
    GetItemListInTrack returns a list of handles, the method returns the
    TimelineItem wrappers of those handles, and given these wrappers
    CreateFusionClip and CreateCompoundClip receive exactly the list of
    handles the host had returned, in the same order. *)
Theorem listed_items_go_back_as_their_handles (E : env) (h index : pyval)
    (tr tr' : list call) (track_type : TrackType) (handles : list pyval)
    (clipinfo : pyval)
    (Hlist : respond E tr
               {| receiver := h; operation := "GetItemListInTrack";
                  arguments := [VStr (value track_type); index] |}
             = Returns (VList handles)) :
  let wrappers := map TimelineItem.Make handles in
  fst (Timeline.get_item_list_in_track track_type index E
         {| self := Timeline.holding h; trace := tr |})
  = Ok (VList (map TimelineItem.to_val wrappers))
  /\ trace (snd (Timeline.create_fusion_clip wrappers E
                   {| self := Timeline.holding h; trace := tr' |}))
     = tr' ++ [ {| receiver := h; operation := "CreateFusionClip";
                   arguments := [VList handles] |} ]
  /\ trace (snd (Timeline.create_compound_clip wrappers clipinfo E
                   {| self := Timeline.holding h; trace := tr' |}))
     = tr' ++ [ {| receiver := h; operation := "CreateCompoundClip";
                   arguments := [VList handles; clipinfo] |} ].
Proof.
  intros wrappers. subst wrappers.
  assert (Hback : map TimelineItem.timeline_item
                    (map TimelineItem.Make handles) = handles).
  { rewrite map_map. apply map_id. }
  split; [| split].
  - rewrite (get_item_list_in_track_wraps_each E h index tr track_type handles
               Hlist).
    now rewrite map_map.
  - change (Timeline.create_fusion_clip (map TimelineItem.Make handles))
      with (Timeline.run
              (Timeline.I_create_fusion_clip (map TimelineItem.Make handles))).
    rewrite Timeline_run_spec. cbn [snd trace].
    unfold Timeline.delegated_call. cbn [Timeline.operation_name Timeline.forwarded].
    now rewrite Hback.
  - rewrite create_compound_clip_forwards_handles. now rewrite Hback.
Qed.

Lemma listed_items_go_back_as_their_handles_witness :
  trace (snd (Timeline.create_fusion_clip
                (map TimelineItem.Make [VHandle 7; VHandle 8])
                (answering (VList [VHandle 7; VHandle 8]))
                {| self := Timeline.holding (VHandle 1); trace := [] |}))
  = [ {| receiver := VHandle 1; operation := "CreateFusionClip";
         arguments := [VList [VHandle 7; VHandle 8]] |} ].
Proof.
  exact (proj1 (proj2 (listed_items_go_back_as_their_handles
                         (answering (VList [VHandle 7; VHandle 8]))
                         (VHandle 1) (VInt 1) [] [] VIDEO_TRACK
                         [VHandle 7; VHandle 8] (VDict []) eq_refl))).
Defined.

(** X10: timeline_item_class_list_transfer works element by element: the
    transfer of two lists put end to end is the transfer of the first followed
    by the transfer of the second, the transfer of a reversed list is the
    reversed transfer, and a handle is in the result exactly when some wrapper
    of the input holds it, so nothing is dropped, added or merged. *)
Theorem timeline_item_class_list_transfer_elementwise
    (l1 l2 : list TimelineItem.t) (x : pyval) :
  timeline_item_class_list_transfer (l1 ++ l2)
  = timeline_item_class_list_transfer l1 ++ timeline_item_class_list_transfer l2
  /\ timeline_item_class_list_transfer (rev l1)
     = rev (timeline_item_class_list_transfer l1)
  /\ (In x (timeline_item_class_list_transfer l1)
      <-> exists w, In w l1 /\ TimelineItem.timeline_item w = x).
Proof.
  rewrite !timeline_item_class_list_transfer_map.
  split; [apply map_app |].
  split; [apply map_rev |].
  rewrite in_map_iff. split; intros (w & H1 & H2); exists w; tauto.
Qed.

(** ** Values that shape the arguments *)

(** X11: the dict built from an ImportOptions loses nothing: two ImportOptions
    values that give the same dict are equal, field by field. *)
Theorem asdict_is_injective (o1 o2 : ImportOptions)
    (Hsame : asdict o1 = asdict o2) : o1 = o2.
Proof.
  destruct o1, o2. unfold asdict in Hsame. simpl in Hsame.
  injection Hsame as -> -> -> -> -> -> -> -> ->. reflexivity.
Qed.

Lemma asdict_is_injective_witness :
  ImportOptions_default = ImportOptions_default.
Proof.
  exact (asdict_is_injective ImportOptions_default ImportOptions_default
           eq_refl).
Defined.

(** X12: the three track types reach the host as three different strings, each
    of them one of 'audio', 'video' and 'subtitle': get_track_count sends the
    host the same call for two track types only when they are the same track
    type. *)
Theorem track_types_stay_distinct (E : env) (h : pyval) (tr : list call)
    (t1 t2 : TrackType) :
  (value t1 = "audio" \/ value t1 = "video" \/ value t1 = "subtitle")
  /\ (value t1 = value t2 <-> t1 = t2)
  /\ (trace (snd (Timeline.get_track_count t1 E
                    {| self := Timeline.holding h; trace := tr |}))
      = trace (snd (Timeline.get_track_count t2 E
                      {| self := Timeline.holding h; trace := tr |}))
      <-> t1 = t2).
Proof.
  split; [destruct t1; simpl; tauto |].
  assert (Hinj : value t1 = value t2 <-> t1 = t2).
  { split; [| now intros ->].
    destruct t1, t2; simpl; intros H; try reflexivity; discriminate H. }
  split; [exact Hinj |].
  change (Timeline.get_track_count t1)
    with (Timeline.run (Timeline.I_get_track_count t1)).
  change (Timeline.get_track_count t2)
    with (Timeline.run (Timeline.I_get_track_count t2)).
  rewrite !Timeline_run_spec. cbn [snd trace].
  split; [| now intros ->].
  intros H. apply app_inv_head in H. apply Hinj.
  unfold Timeline.delegated_call in H.
  cbn [Timeline.operation_name Timeline.forwarded] in H.
  now injection H.
Qed.
